(** * The capture loop and the highlight-joint smoother of
      [flask_app/static/js/main.js]

    The JavaScript module keeps its state in module-level variables and
    changes it from callbacks run by the browser's event loop.  The embedding
    below turns the variables into the fields of a [state] record, every
    function into a state transformer that keeps the name it has in the
    source, and every callback the browser may run into an [event]; [step]
    runs one callback to completion and [run] a whole sequence of them.

    JavaScript numbers are IEEE 754 binary64 values, so coordinates are
    primitive floats and the arithmetic of the smoother is the one the
    browser performs.  [Date.now()] and the frame counters are integers far
    below 2^53 and are kept in [Z]. *)

From Stdlib Require Import Bool List Ascii String ZArith Lia Floats.
Import ListNotations.

Set Warnings "-inexact-float".
Local Open Scope string_scope.

(** ** Data *)

(** One entry of [highlight_joints] / [lastHighlightJoints]. *)
Record joint := Joint {
  name : string;
  x : float;
  y : float }.

(** The [canvas] element, as far as the module reads it. *)
Record surface := Surface {
  width : float;
  height : float }.

(** The object returned by [canvas.getContext('2d')]. *)
Inductive context2d := Context2d.

(** The decoded body of a [/process_frame] response.  A field that is absent
    from the JSON object is [None]. *)
Record response := Response {
  error : option string;
  pose_text : option string;
  confidence : option float;
  feedback_text : option string;
  has_pose : bool;
  angles : option (list (string * float));
  visibility : option (list (string * float));
  highlight_joints : option (list joint) }.

(** What [response.json()] resolves to: [null], on which reading a property
    throws, or an object. *)
Inductive decoded :=
| JsonNull
| JsonObject (data : response).

(** Text of [confidenceEl]: empty, or [`Confidence: ${Math.round(v)}%`]. *)
Inductive confidenceText :=
| NoConfidence
| ConfidencePercent (v : float).

(** One [div.angle-item] built by [displayAngles]; the value is the argument
    of [Math.round]. *)
Record angleItem := AngleItem {
  angleKey : string;
  angleValue : float;
  isLowVis : bool }.

(** The DOM elements the module writes to. *)
Record ui := Ui {
  poseStatus : string;
  confidenceEl : confidenceText;
  feedbackEl : string;
  feedbackGood : bool;
  feedbackNeedsAdjustment : bool;
  anglesPanelShown : bool;
  anglesContent : list angleItem }.

(** Where the promise chain of one [fetch('/process_frame')] stands. *)
Inductive phase :=
| AwaitingResponse
| AwaitingBody.

(** The module-level variables, the DOM, and the requests whose promise chain
    has not run its [finally] yet. *)
Record state := State {
  canvas : option surface;
  ctx : option context2d;
  isStreaming : bool;
  fps : Z;
  frameCount : Z;
  lastTime : Z;
  isProcessingFrame : bool;
  sessionActive : bool;
  lastHighlightJoints : list joint;
  dom : ui;
  pending : list phase }.

(** *** Field updates *)

Definition set_canvas (v : option surface) (s : state) : state :=
  State v (ctx s) (isStreaming s) (fps s) (frameCount s) (lastTime s)
        (isProcessingFrame s) (sessionActive s) (lastHighlightJoints s)
        (dom s) (pending s).

Definition set_ctx (v : option context2d) (s : state) : state :=
  State (canvas s) v (isStreaming s) (fps s) (frameCount s) (lastTime s)
        (isProcessingFrame s) (sessionActive s) (lastHighlightJoints s)
        (dom s) (pending s).

Definition set_isStreaming (v : bool) (s : state) : state :=
  State (canvas s) (ctx s) v (fps s) (frameCount s) (lastTime s)
        (isProcessingFrame s) (sessionActive s) (lastHighlightJoints s)
        (dom s) (pending s).

Definition set_fps (v : Z) (s : state) : state :=
  State (canvas s) (ctx s) (isStreaming s) v (frameCount s) (lastTime s)
        (isProcessingFrame s) (sessionActive s) (lastHighlightJoints s)
        (dom s) (pending s).

Definition set_frameCount (v : Z) (s : state) : state :=
  State (canvas s) (ctx s) (isStreaming s) (fps s) v (lastTime s)
        (isProcessingFrame s) (sessionActive s) (lastHighlightJoints s)
        (dom s) (pending s).

Definition set_lastTime (v : Z) (s : state) : state :=
  State (canvas s) (ctx s) (isStreaming s) (fps s) (frameCount s) v
        (isProcessingFrame s) (sessionActive s) (lastHighlightJoints s)
        (dom s) (pending s).

Definition set_isProcessingFrame (v : bool) (s : state) : state :=
  State (canvas s) (ctx s) (isStreaming s) (fps s) (frameCount s) (lastTime s)
        v (sessionActive s) (lastHighlightJoints s) (dom s) (pending s).

Definition set_sessionActive (v : bool) (s : state) : state :=
  State (canvas s) (ctx s) (isStreaming s) (fps s) (frameCount s) (lastTime s)
        (isProcessingFrame s) v (lastHighlightJoints s) (dom s) (pending s).

Definition set_lastHighlightJoints (v : list joint) (s : state) : state :=
  State (canvas s) (ctx s) (isStreaming s) (fps s) (frameCount s) (lastTime s)
        (isProcessingFrame s) (sessionActive s) v (dom s) (pending s).

Definition set_dom (v : ui) (s : state) : state :=
  State (canvas s) (ctx s) (isStreaming s) (fps s) (frameCount s) (lastTime s)
        (isProcessingFrame s) (sessionActive s) (lastHighlightJoints s)
        v (pending s).

Definition set_pending (v : list phase) (s : state) : state :=
  State (canvas s) (ctx s) (isStreaming s) (fps s) (frameCount s) (lastTime s)
        (isProcessingFrame s) (sessionActive s) (lastHighlightJoints s)
        (dom s) v.

Definition set_poseStatus (v : string) (u : ui) : ui :=
  Ui v (confidenceEl u) (feedbackEl u) (feedbackGood u)
     (feedbackNeedsAdjustment u) (anglesPanelShown u) (anglesContent u).

(** ** The smoother: [updateHighlightJoints] *)

Definition alpha : float := 0.3%float.
Definition snapRadiusPx : float := 25%float.

(** [lastHighlightJoints.find(p => p.name === joint.name)]. *)
Definition findPrev (last : list joint) (j : joint) : option joint :=
  find (fun p => String.eqb (name p) (name j)) last.

(** [dist], the pixel distance between the matched previous joint and the
    new one on the current canvas. *)
Definition pixelDist (c : surface) (prev j : joint) : float :=
  let prevXpx := (x prev * width c)%float in
  let prevYpx := (y prev * height c)%float in
  let newXpx := (x j * width c)%float in
  let newYpx := (y j * height c)%float in
  let dx := (newXpx - prevXpx)%float in
  let dy := (newYpx - prevYpx)%float in
  PrimFloat.sqrt (dx * dx + dy * dy)%float.

(** The smoothed transition between the old and the new position. *)
Definition blend (prev j : joint) : joint :=
  let smoothedX := (alpha * x j + (1 - alpha) * x prev)%float in
  let smoothedY := (alpha * y j + (1 - alpha) * y prev)%float in
  Joint (name j) smoothedX smoothedY.

(** The callback given to [newJoints.map]. *)
Definition smoothJoint (c : surface) (last : list joint) (j : joint) : joint :=
  match findPrev last j with
  | None => j
  | Some prev =>
      if (pixelDist c prev j <? snapRadiusPx)%float then prev
      else blend prev j
  end.

(** [updateHighlightJoints(newJoints)]; [None] is a [null] or [undefined]
    argument. *)
Definition updateHighlightJoints (newJoints : option (list joint)) (s : state)
  : state :=
  match canvas s, ctx s with
  | Some c, Some _ =>
      match newJoints with
      | None | Some [] => set_lastHighlightJoints [] s
      | Some js =>
          set_lastHighlightJoints (map (smoothJoint c (lastHighlightJoints s)) js) s
      end
  | _, _ => set_lastHighlightJoints [] s
  end.

(** ** The presenter: [updateUI] and [displayAngles] *)

(** A string used as a condition: [undefined] and [''] are falsy. *)
Definition truthyString (o : option string) : option string :=
  match o with
  | Some s => if String.eqb s "" then None else Some s
  | None => None
  end.

(** [text.includes(part)]. *)
Fixpoint includes (part text : string) : bool :=
  prefix part text ||
  match text with
  | EmptyString => false
  | String _ rest => includes part rest
  end.

(** [visibility && visibility[key] ? visibility[key] : 1.0]; a number is
    falsy when it is zero or NaN. *)
Definition visibilityOf (visibility : option (list (string * float)))
  (key : string) : float :=
  match visibility with
  | None => 1.0%float
  | Some vs =>
      match find (fun kv => String.eqb (fst kv) key) vs with
      | Some (_, v) =>
          if (v =? 0)%float || PrimFloat.is_nan v then 1.0%float else v
      | None => 1.0%float
      end
  end.

Definition displayAngles (angles : list (string * float))
  (visibility : option (list (string * float))) : list angleItem :=
  map (fun kv =>
         let vis := visibilityOf visibility (fst kv) in
         AngleItem (fst kv) (snd kv) (vis <? 0.7)%float)
      angles.

Definition updateUI (data : response) (u : ui) : ui :=
  let status := match pose_text data with Some t => t | None => "" end in
  let conf :=
    match confidence data with
    | Some c =>
        if (0 <? c)%float then ConfidencePercent (c * 100)%float
        else NoConfidence
    | None => NoConfidence
    end in
  let '(feedback, good, needs) :=
    match truthyString (feedback_text data) with
    | Some t =>
        if includes "Good" t then (t, true, false) else (t, false, true)
    | None => (EmptyString, feedbackGood u, feedbackNeedsAdjustment u)
    end in
  let '(shown, content) :=
    match has_pose data, angles data with
    | true, Some a => (true, displayAngles a (visibility data))
    | _, _ => (false, anglesContent u)
    end in
  Ui status conf feedback good needs shown content.

(** ** The scheduler: [startProcessing] and [captureAndProcess] *)

(** [captureAndProcess()].  After the guard the flag is set; drawing on a
    missing canvas or context throws before the request is built, otherwise
    the frame is drawn, encoded and sent, which adds one pending request. *)
Definition captureAndProcess (s : state) : state :=
  if isProcessingFrame s || negb (isStreaming s) then s
  else
    let s1 := set_isProcessingFrame true s in
    match canvas s1, ctx s1 with
    | Some _, Some _ => set_pending (pending s1 ++ [AwaitingResponse]) s1
    | _, _ => s1
    end.

(** [startProcessing()], with the value [Date.now()] returns. *)
Definition startProcessing (currentTime : Z) (s : state) : state :=
  if negb (isStreaming s) then s
  else
    let s1 := set_frameCount (frameCount s + 1) s in
    let s2 :=
      if (currentTime - lastTime s1 >=? 1000)%Z
      then set_lastTime currentTime (set_frameCount 0 (set_fps (frameCount s1) s1))
      else s1 in
    if negb (isProcessingFrame s2) then captureAndProcess s2 else s2.

(** The [.then(data => ...)] callback of the request. *)
Definition onData (data : response) (s : state) : state :=
  match truthyString (error data) with
  | Some e => set_dom (set_poseStatus ("Error: " ++ e) (dom s)) s
  | None =>
      let s1 := set_dom (updateUI data (dom s)) s in
      let joints := match highlight_joints data with Some js => js | None => [] end in
      updateHighlightJoints (Some joints) s1
  end.

(** The [.finally(() => ...)] callback of the request. *)
Definition onFinally (s : state) : state := set_isProcessingFrame false s.

(** ** The event loop *)

Inductive event :=
| DomContentLoaded (c : surface) (context : option context2d)
| CameraGranted
| LoadedMetadata (videoWidth videoHeight : float) (now : Z)
| SessionStarted
| SessionStartFailed
| StopSession
| SessionStopped
| Tick (now : Z)
| FetchRejected (i : nat)
| FetchResolved (i : nat)
| BodyRejected (i : nat)
| BodyDecoded (i : nat) (d : decoded).

(** The pending requests once the [i]-th has settled, and once its response
    headers have arrived. *)
Definition settleAt (i : nat) (l : list phase) : list phase :=
  firstn i l ++ skipn (S i) l.

Definition advanceAt (i : nat) (l : list phase) : list phase :=
  firstn i l ++ AwaitingBody :: skipn (S i) l.

(** One callback, run to completion.  A network event for a request that is
    not pending in the matching phase cannot happen and changes nothing. *)
Definition step (e : event) (s : state) : state :=
  match e with
  | DomContentLoaded c context => set_ctx context (set_canvas (Some c) s)
  | CameraGranted => set_isStreaming true s
  | LoadedMetadata w h now =>
      match canvas s with
      | Some _ => startProcessing now (set_canvas (Some (Surface w h)) s)
      | None => s
      end
  | SessionStarted =>
      set_dom (set_poseStatus "Session started" (dom s)) (set_sessionActive true s)
  | SessionStartFailed =>
      set_dom (set_poseStatus "Error: Could not start session" (dom s)) s
  | StopSession =>
      if sessionActive s then set_isStreaming false s else s
  | SessionStopped =>
      set_dom (Ui "Session stopped" NoConfidence "" (feedbackGood (dom s))
                  (feedbackNeedsAdjustment (dom s)) false (anglesContent (dom s)))
              (set_sessionActive false s)
  | Tick now => startProcessing now s
  | FetchRejected i =>
      match nth_error (pending s) i with
      | Some AwaitingResponse =>
          onFinally (set_pending (settleAt i (pending s)) s)
      | _ => s
      end
  | FetchResolved i =>
      match nth_error (pending s) i with
      | Some AwaitingResponse => set_pending (advanceAt i (pending s)) s
      | _ => s
      end
  | BodyRejected i =>
      match nth_error (pending s) i with
      | Some AwaitingBody =>
          onFinally (set_pending (settleAt i (pending s)) s)
      | _ => s
      end
  | BodyDecoded i d =>
      match nth_error (pending s) i with
      | Some AwaitingBody =>
          let s1 := match d with
                    | JsonNull => s
                    | JsonObject data => onData data s
                    end in
          onFinally (set_pending (settleAt i (pending s1)) s1)
      | _ => s
      end
  end.

Definition run (events : list event) (s : state) : state :=
  fold_left (fun acc e => step e acc) events s.

(** The state when the script has been evaluated: [t0] is the [Date.now()]
    of that moment and [page] the DOM as the document declares it. *)
Definition initial (t0 : Z) (page : ui) : state :=
  State None None false 30 0 t0 false false [] page [].

(** Number of [/process_frame] requests in flight. *)
Definition outstanding (s : state) : nat := List.length (pending s).

(** ** Vocabulary of the statements *)

(** The invariant of the event loop: there are no more pending requests than
    the flag accounts for. *)
Definition guarded (s : state) : Prop :=
  (outstanding s <= if isProcessingFrame s then 1 else 0)%nat.





(** The events that run [startProcessing], with the time they read. *)
Definition tickTime (e : event) : option Z :=
  match e with
  | Tick now | LoadedMetadata _ _ now => Some now
  | _ => None
  end.

(** A page on which nothing has been written yet. *)
Definition blankPage : ui := Ui "" NoConfidence "" false false false [].

(** The state in which the joints [last] are persisted for a streaming
    session on a 1000 x 1000 canvas with nothing in flight. *)
Definition persisted (last : list joint) : state :=
  State (Some (Surface 1000 1000)) (Some Context2d) true 30 0 0 false true
        last blankPage [].


(** Two joints that carry the same name, as one response may list them. *)
Definition twiceLeftKnee : list joint :=
  [Joint "left_knee" 0 0; Joint "left_knee" 1 1].

(** The joints a decoded response hands to the smoother. *)
Definition jointsOf (e : event) : list joint :=
  match e with
  | BodyDecoded _ (JsonObject data) =>
      match highlight_joints data with Some js => js | None => [] end
  | _ => []
  end.

(** Scenario E: the service reports a model failure. *)
Definition modelFailure : response :=
  Response (Some "model failure") (Some "Warrior II") (Some 0.9%float) None
           true None None (Some [Joint "left_knee" 0.6 0.5]).

(** ** Labels of the angle panel: [formatAngleName] *)

(** [\w] of a regular expression without flags. *)
Definition isWordChar (c : ascii) : bool :=
  let n := nat_of_ascii c in
  ((48 <=? n) && (n <=? 57) || (65 <=? n) && (n <=? 90) || (n =? 95)
   || (97 <=? n) && (n <=? 122))%nat.

(** [l.toUpperCase()] on the one character [\w] matched. *)
Definition toUpperCase (c : ascii) : ascii :=
  let n := nat_of_ascii c in
  if ((97 <=? n) && (n <=? 122))%nat then ascii_of_nat (n - 32) else c.

(** [key.replace(/_/g, ' ')]. *)
Fixpoint replaceUnderscores (key : string) : string :=
  match key with
  | EmptyString => EmptyString
  | String c rest =>
      String (if Ascii.eqb c "_" then " "%char else c) (replaceUnderscores rest)
  end.

(** [text.replace(/\b\w/g, l => l.toUpperCase())]: a word character is
    replaced when the character before it, if any, is not one; [afterWord]
    tells whether the previous character was a word character. *)
Fixpoint capitalizeWords (afterWord : bool) (text : string) : string :=
  match text with
  | EmptyString => EmptyString
  | String c rest =>
      String (if isWordChar c && negb afterWord then toUpperCase c else c)
             (capitalizeWords (isWordChar c) rest)
  end.

(** [formatAngleName(key)].  A key is the sequence of its bytes; the bytes
    of a character outside ASCII are no word characters and are kept, as
    the code units of such a character are. *)
Definition formatAngleName (key : string) : string :=
  capitalizeWords false (replaceUnderscores key).

(** ** More vocabulary *)



(** The text the presenter writes for [data.pose_text]. *)
Definition statusOf (data : response) : string :=
  match pose_text data with Some t => t | None => "" end.

(** A result the service reports for a held pose. *)
Definition holdingPose : response :=
  Response None (Some "Warrior II") (Some 0.9%float) (Some "Good form!") true
           (Some [("left_knee", 92.4%float); ("right_elbow", 171.5%float)])
           (Some [("left_knee", 0.95%float); ("right_elbow", 0.4%float)])
           (Some [Joint "left_knee" 0.6 0.5]).

(** * Properties *)

(** ** Facts on binary64 arithmetic *)

Section Binary64.

Local Open Scope float_scope.

(** A finite number is a zero or has a mantissa and an exponent. *)
Lemma is_finite_cases (z : float) :
  is_finite z = true ->
  (exists sg, Prim2SF z = S754_zero sg)
  \/ (exists sg m e, Prim2SF z = S754_finite sg m e).
Proof.
  unfold is_finite, is_nan, is_infinity.
  rewrite !eqb_spec, abs_spec.
  change (Prim2SF infinity) with (S754_infinity false).
  destruct (Prim2SF z) as [sg|sg| |sg m e]; cbn; try discriminate; eauto.
  destruct sg; discriminate.
Qed.

(** Subtracting a finite number from itself gives [+0]. *)
Lemma finite_sub_diag (z : float) : is_finite z = true -> z - z = 0.
Proof.
  intros Hz. apply Prim2SF_inj. rewrite sub_spec.
  destruct (is_finite_cases z Hz) as [[sg E]|(sg & m & e & E)]; rewrite E.
  - now destruct sg.
  - unfold SF64sub, SFsub. rewrite Z.sub_diag. reflexivity.
Qed.



(** A joint whose pixel coordinates are finite is at distance [+0] from
    itself. *)
Lemma pixelDist_diag (c : surface) (j : joint) :
  is_finite (x j * width c) = true ->
  is_finite (y j * height c) = true ->
  pixelDist c j j = 0.
Proof.
  intros Hx Hy. unfold pixelDist.
  rewrite (finite_sub_diag _ Hx), (finite_sub_diag _ Hy). reflexivity.
Qed.

End Binary64.

(** ** Facts on [find] by name *)

Lemma findPrev_Some (last : list joint) (j prev : joint) :
  findPrev last j = Some prev -> In prev last /\ name prev = name j.
Proof.
  unfold findPrev. intros H. apply find_some in H.
  destruct H as [Hin Heq]. apply String.eqb_eq in Heq. auto.
Qed.

(** With one entry per name, the entry [find] returns is the only one that
    carries the name. *)
Lemma findPrev_unique (last : list joint) (j prev : joint) :
  NoDup (map name last) -> In prev last -> name prev = name j ->
  findPrev last j = Some prev.
Proof.
  unfold findPrev. induction last as [|p last IH]; intros Hnd Hin Hname.
  - contradiction.
  - cbn in Hnd |- *. inversion Hnd as [|? ? Hnotin Hnd']; subst.
    destruct (String.eqb_spec (name p) (name j)) as [E|NE].
    + destruct Hin as [->|Hin]; [reflexivity|].
      exfalso. apply Hnotin. rewrite E, <- Hname. now apply in_map.
    + destruct Hin as [->|Hin]; [congruence|]. now apply IH.
Qed.

Lemma smoothJoint_name (c : surface) (last : list joint) (j : joint) :
  name (smoothJoint c last j) = name j.
Proof.
  unfold smoothJoint. destruct (findPrev last j) as [prev|] eqn:E.
  - apply findPrev_Some in E. destruct E as [_ E].
    now destruct (pixelDist c prev j <? snapRadiusPx)%float.
  - reflexivity.
Qed.

(** ** What each function leaves alone *)

Ltac unfold_setters :=
  unfold set_canvas, set_ctx, set_isStreaming, set_fps, set_frameCount,
    set_lastTime, set_isProcessingFrame, set_sessionActive,
    set_lastHighlightJoints, set_dom, set_pending in *.

Ltac break_match :=
  repeat match goal with
         | |- context [match ?t with _ => _ end] => destruct t eqn:?
         end.

Lemma updateHighlightJoints_only_joints (newJoints : option (list joint))
  (s : state) :
  updateHighlightJoints newJoints s
  = set_lastHighlightJoints
      (lastHighlightJoints (updateHighlightJoints newJoints s)) s.
Proof. unfold updateHighlightJoints. break_match; reflexivity. Qed.

Lemma onData_scheduler (data : response) (s : state) :
  pending (onData data s) = pending s
  /\ isProcessingFrame (onData data s) = isProcessingFrame s
  /\ isStreaming (onData data s) = isStreaming s
  /\ fps (onData data s) = fps s
  /\ frameCount (onData data s) = frameCount s
  /\ lastTime (onData data s) = lastTime s
  /\ canvas (onData data s) = canvas s
  /\ ctx (onData data s) = ctx s.
Proof.
  unfold onData. destruct (truthyString (error data)).
  - repeat split.
  - rewrite updateHighlightJoints_only_joints. repeat split.
Qed.

Lemma settleAt_length (i : nat) (l : list phase) (p : phase) :
  nth_error l i = Some p -> S (List.length (settleAt i l)) = List.length l.
Proof.
  intros H. unfold settleAt.
  assert (Hi : (i < List.length l)%nat)
    by (apply nth_error_Some; congruence).
  rewrite length_app, firstn_length_le, length_skipn by lia. lia.
Qed.

Lemma advanceAt_length (i : nat) (l : list phase) (p : phase) :
  nth_error l i = Some p -> List.length (advanceAt i l) = List.length l.
Proof.
  intros H. unfold advanceAt.
  assert (Hi : (i < List.length l)%nat)
    by (apply nth_error_Some; congruence).
  rewrite length_app, length_cons, firstn_length_le, length_skipn by lia.
  lia.
Qed.

(** ** The in-flight flag covers every pending request *)

Lemma captureAndProcess_guarded (s : state) :
  guarded s -> guarded (captureAndProcess s).
Proof.
  unfold guarded, outstanding, captureAndProcess. intros H.
  destruct (isProcessingFrame s) eqn:F; cbn; [now rewrite F|].
  destruct (isStreaming s); cbn; [|now rewrite F].
  destruct (canvas s), (ctx s); cbn; rewrite ?length_app; cbn; lia.
Qed.

Lemma startProcessing_guarded (now : Z) (s : state) :
  guarded s -> guarded (startProcessing now s).
Proof.
  intros H. unfold startProcessing.
  destruct (isStreaming s); cbn [negb]; auto.
  match goal with
  | |- guarded (if negb (isProcessingFrame ?s2) then _ else _) =>
      assert (H2 : guarded s2)
        by (destruct (now - lastTime (set_frameCount (frameCount s + 1) s)
                      >=? 1000)%Z; exact H);
      destruct (isProcessingFrame s2); cbn [negb];
      auto using captureAndProcess_guarded
  end.
Qed.

Lemma settle_guarded (i : nat) (p : phase) (s : state) :
  guarded s -> nth_error (pending s) i = Some p ->
  guarded (onFinally (set_pending (settleAt i (pending s)) s)).
Proof.
  unfold guarded, outstanding. intros H Hn. cbn.
  pose proof (settleAt_length _ _ _ Hn).
  destruct (isProcessingFrame s); lia.
Qed.

Lemma step_guarded (e : event) (s : state) : guarded s -> guarded (step e s).
Proof.
  intros H. destruct e; cbn; auto.
  - destruct (canvas s); auto. now apply startProcessing_guarded.
  - now destruct (sessionActive s).
  - now apply startProcessing_guarded.
  - destruct (nth_error (pending s) i) as [[]|] eqn:E; auto.
    eapply settle_guarded; eauto.
  - destruct (nth_error (pending s) i) as [[]|] eqn:E; auto.
    unfold guarded, outstanding in *. cbn.
    now rewrite (advanceAt_length _ _ _ E).
  - destruct (nth_error (pending s) i) as [[]|] eqn:E; auto.
    eapply settle_guarded; eauto.
  - destruct (nth_error (pending s) i) as [[]|] eqn:E; auto.
    destruct d as [|data].
    + eapply settle_guarded; eauto.
    + destruct (onData_scheduler data s) as (Hp & Hf & _).
      eapply settle_guarded.
      * unfold guarded, outstanding. now rewrite Hp, Hf.
      * rewrite Hp. eassumption.
Qed.

Lemma run_guarded (events : list event) (s : state) :
  guarded s -> guarded (run events s).
Proof.
  revert s. induction events as [|e events IH]; intros s H; cbn; auto.
  apply IH. now apply step_guarded.
Qed.

Lemma initial_guarded (t0 : Z) (page : ui) : guarded (initial t0 page).
Proof. unfold guarded, outstanding. cbn. lia. Qed.

(** C1: along every execution of the event loop the number of outstanding
    [/process_frame] requests is 0 or 1; a tick that finds the in-flight
    flag set issues no request, and whenever [captureAndProcess] goes past
    its guard the flag was clear before and is set afterwards, the request
    being the only other change. *)
Theorem at_most_one_request_in_flight :
  (forall (t0 : Z) (page : ui) (events : list event),
      outstanding (run events (initial t0 page)) = 0%nat
      \/ outstanding (run events (initial t0 page)) = 1%nat)
  /\ (forall (s : state) (now : Z),
         isProcessingFrame s = true ->
         pending (startProcessing now s) = pending s)
  /\ (forall s : state,
         captureAndProcess s = s
         \/ (isProcessingFrame s = false
             /\ isProcessingFrame (captureAndProcess s) = true
             /\ (captureAndProcess s = set_isProcessingFrame true s
                 \/ captureAndProcess s
                    = set_pending (pending s ++ [AwaitingResponse])
                        (set_isProcessingFrame true s)))).
Proof.
  split; [|split].
  - intros t0 page events.
    pose proof (run_guarded events _ (initial_guarded t0 page)) as H.
    unfold guarded in H.
    destruct (isProcessingFrame (run events (initial t0 page))); lia.
  - intros s now F. unfold startProcessing.
    destruct (isStreaming s); cbn [negb]; [|reflexivity].
    destruct (now - lastTime (set_frameCount (frameCount s + 1) s) >=? 1000)%Z;
      cbn; rewrite F; reflexivity.
  - intros s. unfold captureAndProcess.
    destruct (isProcessingFrame s) eqn:F; cbn; [now left|].
    destruct (isStreaming s); cbn; [|now left].
    right. destruct (canvas s), (ctx s); cbn; auto.
Qed.

(** ** Release of the in-flight flag *)










Lemma run_app (l1 l2 : list event) (s : state) :
  run (l1 ++ l2) s = run l2 (run l1 s).
Proof. apply fold_left_app. Qed.




(** ** A response that carries an error *)

(** C7: when the decoded body has a non-empty [error], the handler writes
    ["Error: " ++ error] to the status text and changes nothing else: the
    persisted joints and every other element of the page are as before, and
    the cycle ends with the request settled and the flag released. *)
Theorem error_field_fails_the_cycle (data : response) (e : string)
  (s : state) :
  error data = Some e -> e <> "" ->
  onData data s = set_dom (set_poseStatus ("Error: " ++ e) (dom s)) s
  /\ poseStatus (dom (onData data s)) = "Error: " ++ e
  /\ lastHighlightJoints (onData data s) = lastHighlightJoints s
  /\ (forall i : nat,
         nth_error (pending s) i = Some AwaitingBody ->
         step (BodyDecoded i (JsonObject data)) s
         = onFinally
             (set_pending (settleAt i (pending s))
                (set_dom (set_poseStatus ("Error: " ++ e) (dom s)) s))).
Proof.
  intros He Hne.
  assert (E : onData data s
              = set_dom (set_poseStatus ("Error: " ++ e) (dom s)) s).
  { unfold onData, truthyString. rewrite He.
    destruct (String.eqb_spec e ""); [contradiction|reflexivity]. }
  split; [exact E|]. split; [now rewrite E|]. split; [now rewrite E|].
  intros i Hi. cbn. rewrite Hi, E. reflexivity.
Qed.

(** ** The frame counter *)

Lemma captureAndProcess_counters (s : state) :
  fps (captureAndProcess s) = fps s
  /\ frameCount (captureAndProcess s) = frameCount s
  /\ lastTime (captureAndProcess s) = lastTime s
  /\ isStreaming (captureAndProcess s) = isStreaming s.
Proof.
  unfold captureAndProcess.
  destruct (isProcessingFrame s || negb (isStreaming s)); [repeat split|].
  cbn. destruct (canvas s), (ctx s); repeat split.
Qed.

(** A tick that does not close the window. *)
Lemma startProcessing_within (now : Z) (s : state) :
  isStreaming s = true -> (now - lastTime s < 1000)%Z ->
  fps (startProcessing now s) = fps s
  /\ frameCount (startProcessing now s) = (frameCount s + 1)%Z
  /\ lastTime (startProcessing now s) = lastTime s
  /\ isStreaming (startProcessing now s) = true.
Proof.
  intros St Hlt. unfold startProcessing. rewrite St. cbn [negb].
  cbn [lastTime set_frameCount].
  destruct (Z.geb_spec (now - lastTime s) 1000) as [Hge|_]; [lia|].
  destruct (negb (isProcessingFrame (set_frameCount (frameCount s + 1) s))).
  - destruct (captureAndProcess_counters
                (set_frameCount (frameCount s + 1) s)) as (-> & -> & -> & ->).
    repeat split; assumption.
  - repeat split; assumption.
Qed.

(** A tick that closes the window. *)
Lemma startProcessing_boundary (now : Z) (s : state) :
  isStreaming s = true -> (1000 <= now - lastTime s)%Z ->
  fps (startProcessing now s) = (frameCount s + 1)%Z
  /\ frameCount (startProcessing now s) = 0%Z
  /\ lastTime (startProcessing now s) = now
  /\ isStreaming (startProcessing now s) = true.
Proof.
  intros St Hge. unfold startProcessing. rewrite St. cbn [negb].
  cbn [lastTime set_frameCount].
  destruct (Z.geb_spec (now - lastTime s) 1000) as [_|Hlt]; [|lia].
  match goal with
  | |- context [if negb (isProcessingFrame ?s2) then _ else _] =>
      destruct (negb (isProcessingFrame s2));
      [destruct (captureAndProcess_counters s2) as (-> & -> & -> & ->)|];
      repeat split; assumption
  end.
Qed.

Lemma ticks_within (ticks : list Z) (s : state) :
  isStreaming s = true ->
  Forall (fun t => t - lastTime s < 1000)%Z ticks ->
  let s' := run (map Tick ticks) s in
  fps s' = fps s
  /\ frameCount s' = (frameCount s + Z.of_nat (List.length ticks))%Z
  /\ lastTime s' = lastTime s
  /\ isStreaming s' = true.
Proof.
  revert s. induction ticks as [|t ticks IH]; intros s St Hall; cbn.
  - repeat split; auto; lia.
  - inversion Hall as [|? ? Ht Hall']; subst.
    destruct (startProcessing_within t s St Ht) as (Hf & Hc & Hl & Hs).
    rewrite <- Hl in Hall'.
    destruct (IH (startProcessing t s) Hs Hall') as (Hf' & Hc' & Hl' & Hs').
    unfold run in *. rewrite Hf', Hc', Hl', Hf, Hc, Hl.
    repeat split; auto; lia.
Qed.

(** C9: a tick of the streaming loop adds one to the frame counter; if at
    least 1000 ms have passed since the window start it stores the counter
    in [fps], resets the counter to zero and the window start to the current
    time, and otherwise leaves [fps] and the window start alone.  No other
    callback changes [fps], and the value stored is the number of ticks of
    the window that has just been completed. *)
Theorem fps_accounting :
  (forall (s : state) (now : Z),
      isStreaming s = true ->
      ((1000 <= now - lastTime s)%Z ->
       fps (startProcessing now s) = (frameCount s + 1)%Z
       /\ frameCount (startProcessing now s) = 0%Z
       /\ lastTime (startProcessing now s) = now)
      /\ ((now - lastTime s < 1000)%Z ->
          fps (startProcessing now s) = fps s
          /\ frameCount (startProcessing now s) = (frameCount s + 1)%Z
          /\ lastTime (startProcessing now s) = lastTime s))
  /\ (forall (e : event) (s : state),
         fps (step e s) <> fps s ->
         exists now : Z,
           tickTime e = Some now /\ isStreaming s = true
           /\ (1000 <= now - lastTime s)%Z
           /\ fps (step e s) = (frameCount s + 1)%Z)
  /\ (forall (s : state) (ticks : list Z) (now : Z),
         isStreaming s = true -> frameCount s = 0%Z ->
         Forall (fun t => t - lastTime s < 1000)%Z ticks ->
         (1000 <= now - lastTime s)%Z ->
         fps (run (map Tick (ticks ++ [now])) s)
         = Z.of_nat (List.length (ticks ++ [now]))).
Proof.
  assert (Htick : forall (s : state) (now : Z),
             fps (startProcessing now s) <> fps s ->
             isStreaming s = true /\ (1000 <= now - lastTime s)%Z
             /\ fps (startProcessing now s) = (frameCount s + 1)%Z).
  { intros s now Hd. destruct (isStreaming s) eqn:St.
    - destruct (Z.le_gt_cases 1000 (now - lastTime s)) as [Hge|Hlt].
      + destruct (startProcessing_boundary now s St Hge) as (Hf & _). auto.
      + destruct (startProcessing_within now s St Hlt) as (Hf & _).
        contradiction.
    - exfalso. apply Hd. unfold startProcessing. now rewrite St. }
  split; [|split].
  - intros s now St. split; intros H.
    + destruct (startProcessing_boundary now s St H) as (? & ? & ? & _). auto.
    + destruct (startProcessing_within now s St H) as (? & ? & ? & _). auto.
  - intros e s Hd. destruct e; cbn in Hd |- *; try (now elim Hd).
    + destruct (canvas s) eqn:Ec; [|now elim Hd].
      pose proof (Htick (set_canvas (Some (Surface videoWidth videoHeight)) s)
                    now Hd) as H.
      cbn in H. exists now. tauto.
    + destruct (sessionActive s); now elim Hd.
    + apply Htick in Hd. exists now. tauto.
    + destruct (nth_error (pending s) i) as [[]|]; now elim Hd.
    + destruct (nth_error (pending s) i) as [[]|]; now elim Hd.
    + destruct (nth_error (pending s) i) as [[]|]; now elim Hd.
    + destruct (nth_error (pending s) i) as [[]|]; try (now elim Hd).
      destruct d as [|data]; [now elim Hd|].
      destruct (onData_scheduler data s) as (_ & _ & _ & Hf & _).
      cbn in Hd. congruence.
  - intros s ticks now St Hc Hall Hge.
    rewrite map_app, run_app.
    destruct (ticks_within ticks s St Hall) as (_ & Hc' & Hl' & Hs').
    cbn. rewrite <- Hl' in Hge.
    destruct (startProcessing_boundary now _ Hs' Hge) as (-> & _).
    rewrite Hc', Hc, length_app. cbn. lia.
Qed.

(** ** The smoother *)

(** With a canvas and its context the persisted joints are the image of the
    new ones under [smoothJoint]. *)
Lemma updateHighlightJoints_map (c : surface) (context : context2d)
  (newJoints : list joint) (s : state) :
  canvas s = Some c -> ctx s = Some context ->
  lastHighlightJoints (updateHighlightJoints (Some newJoints) s)
  = map (smoothJoint c (lastHighlightJoints s)) newJoints.
Proof.
  intros Hc Hx. unfold updateHighlightJoints. rewrite Hc, Hx.
  now destruct newJoints.
Qed.

Lemma updateHighlightJoints_nth (c : surface) (context : context2d)
  (newJoints : list joint) (i : nat) (j : joint) (s : state) :
  canvas s = Some c -> ctx s = Some context ->
  nth_error newJoints i = Some j ->
  nth_error (lastHighlightJoints (updateHighlightJoints (Some newJoints) s)) i
  = Some (smoothJoint c (lastHighlightJoints s) j).
Proof.
  intros Hc Hx Hi.
  rewrite (updateHighlightJoints_map c context) by assumption.
  rewrite nth_error_map, Hi. reflexivity.
Qed.

(** Without a canvas or its context only the reset happens. *)
Lemma updateHighlightJoints_no_surface (newJoints : option (list joint))
  (s : state) :
  canvas s = None \/ ctx s = None ->
  updateHighlightJoints newJoints s = set_lastHighlightJoints [] s.
Proof.
  intros [H|H]; unfold updateHighlightJoints; rewrite H;
    [reflexivity | now destruct (canvas s)].
Qed.





(** C4: an empty or absent list of new joints empties the persisted joints
    at once, whatever was persisted, and changes nothing else; so does a
    response without an error whose [highlight_joints] is empty or absent. *)
Theorem empty_update_clears (s : state) :
  updateHighlightJoints (Some []) s = set_lastHighlightJoints [] s
  /\ updateHighlightJoints None s = set_lastHighlightJoints [] s
  /\ (forall data : response,
         truthyString (error data) = None ->
         highlight_joints data = None \/ highlight_joints data = Some [] ->
         lastHighlightJoints (onData data s) = []).
Proof.
  assert (H : forall s', updateHighlightJoints (Some []) s'
                         = set_lastHighlightJoints [] s')
    by (intros s'; unfold updateHighlightJoints;
        now destruct (canvas s'), (ctx s')).
  split; [apply H|]. split.
  - unfold updateHighlightJoints. now destruct (canvas s), (ctx s).
  - intros data He Hj. unfold onData. rewrite He.
    destruct Hj as [-> | ->]; now rewrite H.
Qed.

(** C10: without a canvas or without its context the update empties the
    persisted joints and drops the new ones, whatever they are. *)
Theorem missing_surface_resets_markers (newJoints : option (list joint))
  (s : state) :
  canvas s = None \/ ctx s = None ->
  updateHighlightJoints newJoints s = set_lastHighlightJoints [] s
  /\ lastHighlightJoints (updateHighlightJoints newJoints s) = [].
Proof.
  intros H. rewrite (updateHighlightJoints_no_surface newJoints s H).
  split; reflexivity.
Qed.

Lemma missing_surface_example :
  lastHighlightJoints
    (updateHighlightJoints (Some [Joint "left_knee" 0.6 0.5])
       (set_ctx None (persisted [Joint "left_knee" 0.5 0.5])))
  = [].
Proof.
  apply (missing_surface_resets_markers
           (Some [Joint "left_knee" 0.6 0.5])
           (set_ctx None (persisted [Joint "left_knee" 0.5 0.5]))).
  right. reflexivity.
Defined.

(** ** One entry per name *)

(** Against C8 as stated: an update whose input repeats a name persists both
    entries. *)
Lemma repeated_name_is_persisted :
  lastHighlightJoints (updateHighlightJoints (Some twiceLeftKnee) (persisted []))
  = twiceLeftKnee
  /\ ~ NoDup (map name
                (lastHighlightJoints
                   (updateHighlightJoints (Some twiceLeftKnee) (persisted [])))).
Proof.
  split; [reflexivity|].
  cbn. intros H. inversion H as [|? ? Hnotin _]. apply Hnotin. now left.
Qed.

Lemma updateHighlightJoints_names (newJoints : list joint) (s : state) :
  canvas s <> None -> ctx s <> None ->
  map name (lastHighlightJoints (updateHighlightJoints (Some newJoints) s))
  = map name newJoints.
Proof.
  intros Hc Hx.
  destruct (canvas s) as [c|] eqn:Ec; [|now elim Hc].
  destruct (ctx s) as [context|] eqn:Ex; [|now elim Hx].
  rewrite (updateHighlightJoints_map c context) by assumption.
  rewrite map_map. apply map_ext. intros j. apply smoothJoint_name.
Qed.

Lemma updateHighlightJoints_NoDup (newJoints : list joint) (s : state) :
  NoDup (map name newJoints) ->
  NoDup (map name
           (lastHighlightJoints (updateHighlightJoints (Some newJoints) s))).
Proof.
  intros H.
  destruct (canvas s) as [c|] eqn:Ec.
  - destruct (ctx s) as [context|] eqn:Ex.
    + rewrite updateHighlightJoints_names; congruence.
    + rewrite updateHighlightJoints_no_surface by auto. constructor.
  - rewrite updateHighlightJoints_no_surface by auto. constructor.
Qed.

Lemma captureAndProcess_joints (s : state) :
  lastHighlightJoints (captureAndProcess s) = lastHighlightJoints s.
Proof.
  unfold captureAndProcess.
  destruct (isProcessingFrame s || negb (isStreaming s)); [reflexivity|].
  cbn. now destruct (canvas s), (ctx s).
Qed.

Lemma startProcessing_joints (now : Z) (s : state) :
  lastHighlightJoints (startProcessing now s) = lastHighlightJoints s.
Proof.
  unfold startProcessing. destruct (isStreaming s); cbn [negb]; auto.
  match goal with
  | |- context [if negb (isProcessingFrame ?s2) then _ else _] =>
      destruct (negb (isProcessingFrame s2));
      rewrite ?captureAndProcess_joints
  end;
  now destruct (now - lastTime (set_frameCount (frameCount s + 1) s) >=? 1000)%Z.
Qed.

Lemma step_NoDup (e : event) (s : state) :
  NoDup (map name (jointsOf e)) ->
  NoDup (map name (lastHighlightJoints s)) ->
  NoDup (map name (lastHighlightJoints (step e s))).
Proof.
  intros He Hs. destruct e; cbn; auto.
  - destruct (canvas s); auto. now rewrite startProcessing_joints.
  - now destruct (sessionActive s).
  - now rewrite startProcessing_joints.
  - now destruct (nth_error (pending s) i) as [[]|].
  - now destruct (nth_error (pending s) i) as [[]|].
  - now destruct (nth_error (pending s) i) as [[]|].
  - destruct (nth_error (pending s) i) as [[]|]; auto.
    destruct d as [|data]; auto. cbn in He |- *.
    unfold onData. destruct (truthyString (error data)); auto.
    now apply updateHighlightJoints_NoDup.
Qed.

(** C8, amended: the persisted joints carry the names of the new joints in
    the same order, so an update whose input has pairwise distinct names
    persists at most one entry per name; along an execution in which every
    response has pairwise distinct names the persisted joints always do. *)
Theorem one_entry_per_name (newJoints : list joint) (s : state) :
  NoDup (map name newJoints) ->
  NoDup (map name
           (lastHighlightJoints (updateHighlightJoints (Some newJoints) s)))
  /\ (canvas s <> None -> ctx s <> None ->
      map name (lastHighlightJoints (updateHighlightJoints (Some newJoints) s))
      = map name newJoints)
  /\ (forall (t0 : Z) (page : ui) (events : list event),
         Forall (fun e => NoDup (map name (jointsOf e))) events ->
         NoDup (map name (lastHighlightJoints (run events (initial t0 page))))).
Proof.
  intros H. split; [now apply updateHighlightJoints_NoDup|].
  split; [apply updateHighlightJoints_names|].
  intros t0 page events.
  assert (G : forall s0, NoDup (map name (lastHighlightJoints s0)) ->
                         Forall (fun e => NoDup (map name (jointsOf e))) events ->
                         NoDup (map name (lastHighlightJoints (run events s0)))).
  { induction events as [|e events IH]; intros s0 H0 Hall; cbn; auto.
    inversion Hall; subst. apply IH; auto. now apply step_NoDup. }
  apply G. constructor.
Qed.

Lemma one_entry_per_name_example :
  NoDup (map name
           (lastHighlightJoints
              (updateHighlightJoints
                 (Some [Joint "left_knee" 0.6 0.5; Joint "right_knee" 0.4 0.5])
                 (persisted [Joint "left_knee" 0.5 0.5])))).
Proof.
  apply (one_entry_per_name
           [Joint "left_knee" 0.6 0.5; Joint "right_knee" 0.4 0.5]
           (persisted [Joint "left_knee" 0.5 0.5])).
  cbn. repeat constructor; cbn; intuition discriminate.
Defined.

(** ** Feeding the persisted joints back *)

(** Against C5 as stated: once a repeated name is persisted, an update with
    exactly the persisted joints moves the second entry towards the first. *)
Lemma repeated_name_is_not_a_fixpoint :
  lastHighlightJoints
    (updateHighlightJoints (Some twiceLeftKnee) (persisted twiceLeftKnee))
  = [Joint "left_knee" 0 0; Joint "left_knee" 0.3 0.3]
  /\ lastHighlightJoints
       (updateHighlightJoints (Some twiceLeftKnee) (persisted twiceLeftKnee))
     <> lastHighlightJoints (persisted twiceLeftKnee).
Proof.
  split; [reflexivity|].
  intros H.
  apply (f_equal (fun l => match l with
                           | [_; q] => (x q =? 1)%float
                           | _ => true
                           end)) in H.
  vm_compute in H. discriminate.
Qed.

(** A coordinate whose pixel value overflows is blended even against itself,
    and the blend of a number with itself need not be that number. *)
Lemma overflowing_coordinate_is_not_a_fixpoint :
  lastHighlightJoints
    (updateHighlightJoints (Some [Joint "left_knee" 1.1e306 0])
       (persisted [Joint "left_knee" 1.1e306 0]))
  = [Joint "left_knee" 1.0999999999999998e306 0].
Proof. reflexivity. Qed.

(** C5, amended: with a canvas and its context, pairwise distinct persisted
    names and finite pixel coordinates, an update with exactly the persisted
    joints leaves the state as it is. *)
Theorem update_with_persisted_joints (s : state) (c : surface)
  (context : context2d) :
  canvas s = Some c -> ctx s = Some context ->
  NoDup (map name (lastHighlightJoints s)) ->
  Forall (fun j => is_finite (x j * width c) = true
                   /\ is_finite (y j * height c) = true)
         (lastHighlightJoints s) ->
  updateHighlightJoints (Some (lastHighlightJoints s)) s = s.
Proof.
  intros Hc Hx Hnd Hfin.
  rewrite updateHighlightJoints_only_joints.
  rewrite (updateHighlightJoints_map c context) by assumption.
  assert (E : map (smoothJoint c (lastHighlightJoints s)) (lastHighlightJoints s)
              = lastHighlightJoints s).
  { rewrite <- (map_id (lastHighlightJoints s)) at 3.
    apply map_ext_in. intros j Hj. unfold smoothJoint.
    rewrite (findPrev_unique _ j j Hnd Hj eq_refl).
    rewrite Forall_forall in Hfin. destruct (Hfin j Hj) as [Fx Fy].
    now rewrite (pixelDist_diag c j Fx Fy). }
  rewrite E. now destruct s.
Qed.

Lemma update_with_persisted_joints_example :
  updateHighlightJoints
    (Some [Joint "left_knee" 0.5 0.5; Joint "right_knee" 0.4 0.5])
    (persisted [Joint "left_knee" 0.5 0.5; Joint "right_knee" 0.4 0.5])
  = persisted [Joint "left_knee" 0.5 0.5; Joint "right_knee" 0.4 0.5].
Proof.
  apply (update_with_persisted_joints
           (persisted [Joint "left_knee" 0.5 0.5; Joint "right_knee" 0.4 0.5])
           (Surface 1000 1000) Context2d); try reflexivity.
  - cbn. repeat constructor; cbn; intuition discriminate.
  - repeat constructor.
Defined.

(** ** Concrete runs of the scheduler *)


Lemma error_field_scenario_E :
  poseStatus (dom (onData modelFailure (persisted [Joint "left_knee" 0.5 0.5])))
  = "Error: model failure"
  /\ lastHighlightJoints
       (onData modelFailure (persisted [Joint "left_knee" 0.5 0.5]))
     = [Joint "left_knee" 0.5 0.5].
Proof.
  destruct (error_field_fails_the_cycle modelFailure "model failure"
              (persisted [Joint "left_knee" 0.5 0.5]))
    as (_ & P & J & _); [reflexivity | discriminate |].
  split; [exact P | exact J].
Defined.

(** Three ticks inside the window and the one that closes it: four frames. *)
Lemma fps_accounting_example :
  fps (run (map Tick ([100; 500; 900] ++ [1000])%list%Z) (persisted [])) = 4%Z.
Proof.
  destruct fps_accounting as (_ & _ & H).
  apply (H (persisted []) [100; 500; 900]%Z 1000%Z).
  - reflexivity.
  - reflexivity.
  - repeat (apply Forall_cons; [reflexivity|]). apply Forall_nil.
  - cbn. lia.
Defined.

(** Scenario C: a result without highlighted joints after a frame with one. *)
Lemma empty_update_example :
  lastHighlightJoints
    (onData (Response None (Some "Warrior II") (Some 0.9%float) None true
               None None (Some []))
       (persisted [Joint "left_knee" 0.5 0.5]))
  = [].
Proof.
  destruct (empty_update_clears (persisted [Joint "left_knee" 0.5 0.5]))
    as (_ & _ & H).
  apply H; [reflexivity | right; reflexivity].
Defined.

(** * Further properties of the smoother *)

Lemma findPrev_None (last : list joint) (j : joint) :
  ~ In (name j) (map name last) -> findPrev last j = None.
Proof.
  intros Hn. unfold findPrev.
  destruct (find (fun p => String.eqb (name p) (name j)) last) as [p|] eqn:E;
    [|reflexivity].
  apply find_some in E. destruct E as [Hin Heq].
  apply String.eqb_eq in Heq. exfalso. apply Hn. rewrite <- Heq.
  now apply in_map.
Qed.

(** X1: a new joint whose name has no persisted entry is stored as it is,
    at its own position in the list. *)
Theorem new_landmark_is_adopted (s : state) (c : surface)
  (context : context2d) (newJoints : list joint) (i : nat) (j : joint) :
  canvas s = Some c -> ctx s = Some context ->
  nth_error newJoints i = Some j ->
  ~ In (name j) (map name (lastHighlightJoints s)) ->
  nth_error (lastHighlightJoints (updateHighlightJoints (Some newJoints) s)) i
  = Some j.
Proof.
  intros Hc Hx Hi Hn.
  rewrite (updateHighlightJoints_nth c context newJoints i j) by assumption.
  unfold smoothJoint. now rewrite findPrev_None.
Qed.

Lemma new_landmark_example :
  nth_error
    (lastHighlightJoints
       (updateHighlightJoints
          (Some [Joint "left_knee" 0.6 0.5; Joint "right_hip" 0.4 0.7])
          (persisted [Joint "left_knee" 0.5 0.5]))) 1
  = Some (Joint "right_hip" 0.4 0.7).
Proof.
  apply (new_landmark_is_adopted
           (persisted [Joint "left_knee" 0.5 0.5]) (Surface 1000 1000)
           Context2d
           [Joint "left_knee" 0.6 0.5; Joint "right_hip" 0.4 0.7] 1
           (Joint "right_hip" 0.4 0.7)); try reflexivity.
  cbn. intros [H|[]]. discriminate H.
Defined.

(** X2: whatever was persisted, after an update there is one entry per new
    joint when a canvas and its context exist and none otherwise, and a
    name that the new joints do not carry has no entry any more. *)
Theorem absent_names_are_dropped (newJoints : list joint) (s : state) :
  (canvas s <> None -> ctx s <> None ->
   List.length (lastHighlightJoints (updateHighlightJoints (Some newJoints) s))
   = List.length newJoints)
  /\ (forall n : string,
         ~ In n (map name newJoints) ->
         ~ In n (map name
                   (lastHighlightJoints
                      (updateHighlightJoints (Some newJoints) s)))).
Proof.
  split.
  - intros Hc Hx.
    rewrite <- (length_map name), updateHighlightJoints_names by assumption.
    apply length_map.
  - intros n Hn.
    destruct (canvas s) as [c|] eqn:Ec.
    + destruct (ctx s) as [context|] eqn:Ex.
      * rewrite updateHighlightJoints_names; congruence.
      * rewrite updateHighlightJoints_no_surface by auto. cbn. tauto.
    + rewrite updateHighlightJoints_no_surface by auto. cbn. tauto.
Qed.




(** ** Coordinates that are not numbers *)

Lemma nan_mul_l (w : float) : (nan * w)%float = nan.
Proof. apply Prim2SF_inj. rewrite mul_spec. reflexivity. Qed.

Lemma nan_mul_r (w : float) : (w * nan)%float = nan.
Proof.
  apply Prim2SF_inj. rewrite mul_spec.
  change (Prim2SF nan) with S754_nan. now destruct (Prim2SF w).
Qed.

Lemma nan_sub_l (w : float) : (nan - w)%float = nan.
Proof. apply Prim2SF_inj. rewrite sub_spec. reflexivity. Qed.

Lemma nan_sub_r (w : float) : (w - nan)%float = nan.
Proof.
  apply Prim2SF_inj. rewrite sub_spec.
  change (Prim2SF nan) with S754_nan. now destruct (Prim2SF w).
Qed.

Lemma nan_add_l (w : float) : (nan + w)%float = nan.
Proof. apply Prim2SF_inj. rewrite add_spec. reflexivity. Qed.

Lemma nan_add_r (w : float) : (w + nan)%float = nan.
Proof.
  apply Prim2SF_inj. rewrite add_spec.
  change (Prim2SF nan) with S754_nan. now destruct (Prim2SF w).
Qed.

Lemma nan_ltb_l (w : float) : (nan <? w)%float = false.
Proof. rewrite ltb_spec. reflexivity. Qed.

(** The distance is NaN as soon as one of the four coordinates is. *)
Lemma pixelDist_nan (c : surface) (prev j : joint) :
  x prev = nan \/ x j = nan \/ y prev = nan \/ y j = nan ->
  pixelDist c prev j = nan.
Proof.
  unfold pixelDist. intros [H|[H|[H|H]]]; rewrite H;
    rewrite ?nan_mul_l, ?nan_sub_l, ?nan_sub_r, ?nan_mul_l, ?nan_mul_r,
      ?nan_add_l, ?nan_add_r;
    reflexivity.
Qed.

(** X4: a coordinate that is NaN (as a missing [x] or [y] is in
    arithmetic) is never snapped away.  When the previous or the new joint
    of a name has such a coordinate, the stored entry is the blend, and the
    blend is NaN in every coordinate in which either of them is. *)
Theorem nan_coordinate_is_kept (s : state) (c : surface)
  (context : context2d) (newJoints : list joint) (i : nat) (j prev : joint) :
  canvas s = Some c -> ctx s = Some context ->
  nth_error newJoints i = Some j ->
  findPrev (lastHighlightJoints s) j = Some prev ->
  x prev = nan \/ x j = nan \/ y prev = nan \/ y j = nan ->
  nth_error (lastHighlightJoints (updateHighlightJoints (Some newJoints) s)) i
  = Some (blend prev j)
  /\ (x prev = nan \/ x j = nan -> x (blend prev j) = nan)
  /\ (y prev = nan \/ y j = nan -> y (blend prev j) = nan).
Proof.
  intros Hc Hx Hi Hprev Hnan. split; [|split].
  - rewrite (updateHighlightJoints_nth c context newJoints i j) by assumption.
    unfold smoothJoint.
    now rewrite Hprev, (pixelDist_nan c prev j Hnan), nan_ltb_l.
  - intros [H|H]; cbn; rewrite H;
      now rewrite ?nan_mul_r, ?nan_add_l, ?nan_add_r.
  - intros [H|H]; cbn; rewrite H;
      now rewrite ?nan_mul_r, ?nan_add_l, ?nan_add_r.
Qed.

Lemma nan_coordinate_example :
  nth_error
    (lastHighlightJoints
       (updateHighlightJoints (Some [Joint "left_knee" 0.5 0.5])
          (persisted [Joint "left_knee" nan 0.5]))) 0
  = Some (Joint "left_knee" nan 0.5).
Proof.
  exact (proj1 (nan_coordinate_is_kept
                  (persisted [Joint "left_knee" nan 0.5]) (Surface 1000 1000)
                  Context2d [Joint "left_knee" 0.5 0.5] 0
                  (Joint "left_knee" 0.5 0.5) (Joint "left_knee" nan 0.5)
                  eq_refl eq_refl eq_refl eq_refl (or_introl eq_refl))).
Defined.

(** * Further properties of the scheduler *)

Lemma captureAndProcess_frame (s : state) :
  canvas (captureAndProcess s) = canvas s
  /\ ctx (captureAndProcess s) = ctx s
  /\ sessionActive (captureAndProcess s) = sessionActive s
  /\ dom (captureAndProcess s) = dom s.
Proof.
  unfold captureAndProcess.
  destruct (isProcessingFrame s || negb (isStreaming s)); [repeat split|].
  cbn. destruct (canvas s) eqn:Ec, (ctx s) eqn:Ex; cbn; repeat split;
    congruence.
Qed.

Lemma startProcessing_frame (now : Z) (s : state) :
  canvas (startProcessing now s) = canvas s
  /\ ctx (startProcessing now s) = ctx s
  /\ sessionActive (startProcessing now s) = sessionActive s
  /\ dom (startProcessing now s) = dom s
  /\ isStreaming (startProcessing now s) = isStreaming s.
Proof.
  unfold startProcessing. destruct (isStreaming s) eqn:St; cbn [negb];
    [|repeat split; assumption].
  match goal with
  | |- context [if negb (isProcessingFrame ?s2) then _ else _] =>
      destruct (negb (isProcessingFrame s2));
      [destruct (captureAndProcess_frame s2) as (-> & -> & -> & ->);
       destruct (captureAndProcess_counters s2) as (_ & _ & _ & ->)|]
  end;
  destruct (now - lastTime (set_frameCount (frameCount s + 1) s) >=? 1000)%Z;
  repeat split; assumption.
Qed.

Lemma onData_session (data : response) (s : state) :
  sessionActive (onData data s) = sessionActive s.
Proof.
  unfold onData. destruct (truthyString (error data)); [reflexivity|].
  now rewrite updateHighlightJoints_only_joints.
Qed.

(** What one callback does to the three counters. *)
Lemma step_counters (e : event) (s : state) :
  (fps (step e s) = fps s /\ frameCount (step e s) = frameCount s
   /\ lastTime (step e s) = lastTime s)
  \/ (exists now : Z,
         tickTime e = Some now /\ isStreaming s = true
         /\ (((1000 <= now - lastTime s)%Z
              /\ fps (step e s) = (frameCount s + 1)%Z
              /\ frameCount (step e s) = 0%Z
              /\ lastTime (step e s) = now)
             \/ ((now - lastTime s < 1000)%Z
                 /\ fps (step e s) = fps s
                 /\ frameCount (step e s) = (frameCount s + 1)%Z
                 /\ lastTime (step e s) = lastTime s))).
Proof.
  assert (Htick : forall (now : Z) (s0 : state),
             (fps (startProcessing now s0) = fps s0
              /\ frameCount (startProcessing now s0) = frameCount s0
              /\ lastTime (startProcessing now s0) = lastTime s0)
             \/ (isStreaming s0 = true
                 /\ (((1000 <= now - lastTime s0)%Z
                      /\ fps (startProcessing now s0) = (frameCount s0 + 1)%Z
                      /\ frameCount (startProcessing now s0) = 0%Z
                      /\ lastTime (startProcessing now s0) = now)
                     \/ ((now - lastTime s0 < 1000)%Z
                         /\ fps (startProcessing now s0) = fps s0
                         /\ frameCount (startProcessing now s0)
                            = (frameCount s0 + 1)%Z
                         /\ lastTime (startProcessing now s0) = lastTime s0)))).
  { intros now s0. destruct (isStreaming s0) eqn:St.
    - right. split; [reflexivity|].
      destruct (Z.le_gt_cases 1000 (now - lastTime s0)) as [Hge|Hlt].
      + left. destruct (startProcessing_boundary now s0 St Hge)
          as (? & ? & ? & _). auto.
      + right. destruct (startProcessing_within now s0 St Hlt)
          as (? & ? & ? & _). auto.
    - left. unfold startProcessing. rewrite St. auto. }
  destruct e; cbn; try (left; repeat split; fail).
  - destruct (canvas s); [|left; repeat split].
    destruct (Htick now (set_canvas (Some (Surface videoWidth videoHeight)) s))
      as [H|[St H]]; [left; exact H|].
    right. exists now. cbn in St, H. auto.
  - left. now destruct (sessionActive s).
  - destruct (Htick now s) as [H|[St H]]; [left; exact H|].
    right. exists now. auto.
  - left. now destruct (nth_error (pending s) i) as [[]|].
  - left. now destruct (nth_error (pending s) i) as [[]|].
  - left. now destruct (nth_error (pending s) i) as [[]|].
  - left. destruct (nth_error (pending s) i) as [[]|]; auto.
    destruct d as [|data]; auto. cbn.
    destruct (onData_scheduler data s) as (_ & _ & _ & -> & -> & -> & _).
    auto.
Qed.

(** X5: the frame counter is never negative and the frame rate sent to the
    service is at least 1, whatever the callbacks and the clock do. *)
Theorem fps_is_positive (t0 : Z) (page : ui) (events : list event) :
  (0 <= frameCount (run events (initial t0 page)))%Z
  /\ (1 <= fps (run events (initial t0 page)))%Z.
Proof.
  assert (G : forall s, (0 <= frameCount s)%Z /\ (1 <= fps s)%Z ->
                        (0 <= frameCount (run events s))%Z
                        /\ (1 <= fps (run events s))%Z).
  { induction events as [|e events IH]; intros s H; cbn; [exact H|].
    apply IH.
    destruct (step_counters e s)
      as [(-> & -> & _)|(now & _ & _ & [(_ & -> & -> & _)|(_ & -> & -> & _)])];
      lia. }
  apply G. cbn. lia.
Qed.

(** X6: the start of the counting window never moves back, even when the
    clock does: a callback leaves it alone or advances it by at least
    1000 ms. *)
Theorem window_start_only_advances :
  (forall (e : event) (s : state),
      lastTime (step e s) = lastTime s
      \/ (lastTime s + 1000 <= lastTime (step e s))%Z)
  /\ (forall (events : list event) (s : state),
         (lastTime s <= lastTime (run events s))%Z).
Proof.
  assert (H1 : forall (e : event) (s : state),
             lastTime (step e s) = lastTime s
             \/ (lastTime s + 1000 <= lastTime (step e s))%Z).
  { intros e s.
    destruct (step_counters e s)
      as [(_ & _ & ->)|(now & _ & _ & [(? & _ & _ & ->)|(_ & _ & _ & ->)])];
      auto. right. lia. }
  split; [exact H1|].
  induction events as [|e events IH]; intros s; cbn; [lia|].
  specialize (IH (step e s)). destruct (H1 e s) as [E|E]; unfold run in *; lia.
Qed.

Lemma ticks_stopped (ticks : list Z) (s : state) :
  isStreaming s = false -> run (map Tick ticks) s = s.
Proof.
  intros St. induction ticks as [|t ticks IH]; [reflexivity|].
  cbn. unfold startProcessing. rewrite St. exact IH.
Qed.

(** X7: stopping an active session halts the loop.  Whatever ticks still
    arrive afterwards, the state stays the one in which only [isStreaming]
    was cleared: no frame is counted and no request is issued. *)
Theorem stopped_loop_is_idle (s : state) (ticks : list Z) :
  sessionActive s = true ->
  run (StopSession :: map Tick ticks) s = set_isStreaming false s.
Proof.
  intros Ha. cbn. rewrite Ha. now apply ticks_stopped.
Qed.

Lemma stopped_loop_example :
  run (StopSession :: map Tick [16; 33; 50]%Z) (persisted [])
  = set_isStreaming false (persisted []).
Proof.
  apply (stopped_loop_is_idle (persisted []) [16; 33; 50]%Z). reflexivity.
Defined.

(** X8: the handler of a result does not look at the session.  A result
    that arrives after the session was stopped and the page reset still
    replaces the status text "Session stopped" by the result's and shows or
    hides the angle panel as the result says. *)
Theorem late_result_overwrites_stop_message (s : state) (i : nat)
  (data : response) :
  sessionActive s = true ->
  nth_error (pending s) i = Some AwaitingBody ->
  truthyString (error data) = None ->
  let s' := run [StopSession; SessionStopped; BodyDecoded i (JsonObject data)]
                s in
  isStreaming s' = false /\ sessionActive s' = false
  /\ poseStatus (dom s') = statusOf data
  /\ anglesPanelShown (dom s')
     = has_pose data && match angles data with Some _ => true | None => false end
  /\ isProcessingFrame s' = false.
Proof.
  intros Ha Hi He. cbn. rewrite Ha. cbn. rewrite Hi.
  unfold onData. rewrite He.
  rewrite updateHighlightJoints_only_joints. cbn.
  repeat split.
  - unfold updateUI, statusOf.
    destruct (truthyString (feedback_text data)) as [t|];
      [destruct (includes "Good" t)|];
      destruct (has_pose data), (angles data); reflexivity.
  - unfold updateUI.
    destruct (truthyString (feedback_text data)) as [t|];
      [destruct (includes "Good" t)|];
      destruct (has_pose data), (angles data); reflexivity.
Qed.

Lemma late_result_example :
  poseStatus
    (dom (run [StopSession; SessionStopped; BodyDecoded 0 (JsonObject holdingPose)]
              (set_pending [AwaitingBody]
                 (set_isProcessingFrame true (persisted [])))))
  = "Warrior II".
Proof.
  destruct (late_result_overwrites_stop_message
              (set_pending [AwaitingBody]
                 (set_isProcessingFrame true (persisted [])))
              0 holdingPose eq_refl eq_refl eq_refl)
    as (_ & _ & H & _).
  exact H.
Defined.

(** The flag is set although nothing is pending. *)
Lemma step_stuck (e : event) (s : state) :
  isProcessingFrame s = true -> pending s = [] ->
  isProcessingFrame (step e s) = true /\ pending (step e s) = [].
Proof.
  intros F P.
  assert (Htick : forall (now : Z) (s0 : state),
             isProcessingFrame s0 = true -> pending s0 = [] ->
             isProcessingFrame (startProcessing now s0) = true
             /\ pending (startProcessing now s0) = []).
  { intros now s0 F0 P0. unfold startProcessing.
    destruct (isStreaming s0); cbn [negb]; [|auto].
    destruct (now - lastTime (set_frameCount (frameCount s0 + 1) s0)
              >=? 1000)%Z; cbn; rewrite F0; cbn; auto. }
  destruct e; cbn; auto.
  - destruct (canvas s); auto.
  - now destruct (sessionActive s).
  - rewrite P. now destruct i.
  - rewrite P. now destruct i.
  - rewrite P. now destruct i.
  - rewrite P. now destruct i.
Qed.

Lemma run_stuck (events : list event) (s : state) :
  isProcessingFrame s = true -> pending s = [] ->
  isProcessingFrame (run events s) = true /\ pending (run events s) = [].
Proof.
  revert s. induction events as [|e events IH]; intros s F P; cbn; auto.
  destruct (step_stuck e s F P) as [F' P']. now apply IH.
Qed.

(** X9: only the [finally] of a request clears the in-flight flag.  When the
    canvas or its context is missing, the tick of a streaming loop sets the
    flag and then fails before a request exists; from then on, whatever
    callbacks run, the flag stays set and no request is ever issued. *)
Theorem flag_without_request_is_never_released (s : state) (now : Z)
  (events : list event) :
  isStreaming s = true -> isProcessingFrame s = false -> pending s = [] ->
  canvas s = None \/ ctx s = None ->
  isProcessingFrame (run (Tick now :: events) s) = true
  /\ pending (run (Tick now :: events) s) = [].
Proof.
  intros St F P Hno. cbn. apply run_stuck.
  - unfold startProcessing. rewrite St. cbn [negb].
    destruct (now - lastTime (set_frameCount (frameCount s + 1) s) >=? 1000)%Z;
      cbn; rewrite F; cbn; unfold captureAndProcess; cbn; rewrite F, St; cbn;
      destruct Hno as [H|H]; rewrite H; try reflexivity;
      now destruct (canvas s).
  - unfold startProcessing. rewrite St. cbn [negb].
    destruct (now - lastTime (set_frameCount (frameCount s + 1) s) >=? 1000)%Z;
      cbn; rewrite F; cbn; unfold captureAndProcess; cbn; rewrite F, St; cbn;
      destruct Hno as [H|H]; rewrite H; try assumption;
      now destruct (canvas s).
Qed.

Lemma flag_without_request_example :
  isProcessingFrame
    (run [Tick 16; DomContentLoaded (Surface 640 480) (Some Context2d);
          Tick 33; FetchRejected 0; Tick 50]%Z
         (set_ctx None (persisted [])))
  = true.
Proof.
  apply (flag_without_request_is_never_released
           (set_ctx None (persisted [])) 16%Z
           [DomContentLoaded (Surface 640 480) (Some Context2d);
            Tick 33; FetchRejected 0; Tick 50]%Z);
    try reflexivity.
  right. reflexivity.
Defined.

(** X10: a session whose start failed after the camera was granted cannot
    be stopped.  While streaming is on and the session is not marked
    active, no sequence of callbacks without a successful start turns
    streaming off; [stopSession] in particular returns at its guard. *)
Theorem failed_start_cannot_be_stopped (s : state) (events : list event) :
  isStreaming s = true -> sessionActive s = false ->
  ~ In SessionStarted events ->
  isStreaming (run events s) = true /\ sessionActive (run events s) = false.
Proof.
  revert s. induction events as [|e events IH]; intros s St Ha Hn; cbn; auto.
  assert (He : e <> SessionStarted) by (intros ->; apply Hn; now left).
  assert (Hn' : ~ In SessionStarted events) by (intros H; apply Hn; now right).
  assert (H : isStreaming (step e s) = true /\ sessionActive (step e s) = false).
  { destruct e; cbn; auto; try (now elim He).
    - destruct (canvas s); auto.
      destruct (startProcessing_frame now
                  (set_canvas (Some (Surface videoWidth videoHeight)) s))
        as (_ & _ & -> & _ & ->). auto.
    - rewrite Ha. auto.
    - destruct (startProcessing_frame now s) as (_ & _ & -> & _ & ->). auto.
    - destruct (nth_error (pending s) i) as [[]|]; auto.
    - destruct (nth_error (pending s) i) as [[]|]; auto.
    - destruct (nth_error (pending s) i) as [[]|]; auto.
    - destruct (nth_error (pending s) i) as [[]|]; auto.
      destruct d as [|data]; auto. cbn.
      destruct (onData_scheduler data s) as (_ & _ & -> & _).
      rewrite onData_session. auto. }
  destruct H. now apply IH.
Qed.

Lemma failed_start_example :
  isStreaming
    (run [Tick 16; StopSession; Tick 33]%Z
         (run [CameraGranted; SessionStartFailed] (initial 0 blankPage)))
  = true.
Proof.
  apply (failed_start_cannot_be_stopped
           (run [CameraGranted; SessionStartFailed] (initial 0 blankPage))
           [Tick 16; StopSession; Tick 33]%Z); try reflexivity.
  cbn. intros [H|[H|[H|[]]]]; discriminate H.
Defined.

(** X11: the persisted joints have a single writer.  A callback changes
    them only if it is the decoded body, without a truthy [error], of a
    request that was awaiting its body; ticks, session callbacks and failed
    cycles leave them in place. *)
Theorem joints_change_only_on_results (e : event) (s : state) :
  lastHighlightJoints (step e s) <> lastHighlightJoints s ->
  exists (i : nat) (data : response),
    e = BodyDecoded i (JsonObject data)
    /\ truthyString (error data) = None
    /\ nth_error (pending s) i = Some AwaitingBody.
Proof.
  intros Hd. destruct e; cbn in Hd; try (now elim Hd).
  - destruct (canvas s); [|now elim Hd].
    rewrite startProcessing_joints in Hd. now elim Hd.
  - destruct (sessionActive s); now elim Hd.
  - rewrite startProcessing_joints in Hd. now elim Hd.
  - destruct (nth_error (pending s) i) as [[]|]; now elim Hd.
  - destruct (nth_error (pending s) i) as [[]|]; now elim Hd.
  - destruct (nth_error (pending s) i) as [[]|]; now elim Hd.
  - destruct (nth_error (pending s) i) as [[]|] eqn:Hi; try (now elim Hd).
    destruct d as [|data]; [now elim Hd|].
    exists i, data. repeat split; auto.
    cbn in Hd. unfold onData in Hd.
    destruct (truthyString (error data)); [now elim Hd|reflexivity].
Qed.

Lemma joints_change_example :
  exists (i : nat) (data : response),
    BodyDecoded 0 (JsonObject holdingPose) = BodyDecoded i (JsonObject data)
    /\ truthyString (error data) = None
    /\ nth_error [AwaitingBody] i = Some AwaitingBody.
Proof.
  apply (joints_change_only_on_results
           (BodyDecoded 0 (JsonObject holdingPose))
           (set_pending [AwaitingBody]
              (set_isProcessingFrame true (persisted [])))).
  cbn. discriminate.
Defined.

(** X12: along every execution, when the in-flight flag is clear nothing is
    pending; a response therefore always finds the flag set. *)
Theorem clear_flag_means_nothing_pending (t0 : Z) (page : ui)
  (events : list event) :
  isProcessingFrame (run events (initial t0 page)) = false ->
  pending (run events (initial t0 page)) = [].
Proof.
  intros F.
  pose proof (run_guarded events _ (initial_guarded t0 page)) as H.
  unfold guarded, outstanding in H. rewrite F in H.
  destruct (pending (run events (initial t0 page))); [reflexivity|].
  cbn in H. lia.
Qed.

Lemma clear_flag_example :
  pending
    (run [DomContentLoaded (Surface 640 480) (Some Context2d); CameraGranted;
          LoadedMetadata 1280 720 5; Tick 21; FetchRejected 0]%Z
         (initial 0 blankPage))
  = [].
Proof.
  apply (clear_flag_means_nothing_pending 0 blankPage
           [DomContentLoaded (Surface 640 480) (Some Context2d); CameraGranted;
            LoadedMetadata 1280 720 5; Tick 21; FetchRejected 0]%Z).
  reflexivity.
Defined.

(** * Properties of the presenter *)

Lemma prefix_app (part text : string) :
  prefix part text = true <-> exists rest, text = part ++ rest.
Proof.
  revert text. induction part as [|c part IH]; intros text; cbn.
  - split; [intros _; now exists text | intros _; now destruct text].
  - destruct text as [|d text]; cbn.
    + split; [discriminate | intros [rest H]; discriminate].
    + destruct (Ascii.ascii_dec c d) as [->|NE].
      * rewrite IH. split; intros [rest H]; exists rest; congruence.
      * split; [discriminate | intros [rest H]; congruence].
Qed.

Lemma includes_unfold (part text : string) :
  includes part text
  = prefix part text
    || match text with
       | EmptyString => false
       | String _ rest => includes part rest
       end.
Proof. now destruct text. Qed.

(** [includes] finds exactly the texts that contain the part. *)
Lemma includes_app (part text : string) :
  includes part text = true <-> exists before rest, text = before ++ part ++ rest.
Proof.
  induction text as [|d text IH]; rewrite includes_unfold.
  - rewrite orb_false_r, prefix_app. split.
    + intros [rest H]. now exists "", rest.
    + intros (before & rest & H). destruct before; cbn in H.
      * now exists rest.
      * discriminate.
  - rewrite orb_true_iff, prefix_app, IH. split.
    + intros [[rest H]|(before & rest & H)].
      * now exists "", rest.
      * exists (String d before), rest. cbn. now rewrite H.
    + intros (before & rest & H). destruct before as [|b before]; cbn in H.
      * left. now exists rest.
      * right. exists before, rest. congruence.
Qed.

(** X13: a non-empty feedback text is shown with exactly one of the two
    classes: [good] when the text contains "Good" anywhere, with that
    capital, and [needs-adjustment] otherwise. *)
Theorem feedback_is_good_iff_it_contains_Good (data : response) (t : string)
  (u : ui) :
  feedback_text data = Some t -> t <> "" ->
  feedbackEl (updateUI data u) = t
  /\ (feedbackGood (updateUI data u) = true
      <-> exists before rest, t = before ++ "Good" ++ rest)
  /\ feedbackNeedsAdjustment (updateUI data u)
     = negb (feedbackGood (updateUI data u)).
Proof.
  intros Hf Hne.
  assert (E : truthyString (feedback_text data) = Some t).
  { rewrite Hf. cbn. destruct (String.eqb_spec t ""); [contradiction|reflexivity]. }
  rewrite <- includes_app.
  unfold updateUI. rewrite E.
  destruct (includes "Good" t);
    destruct (has_pose data), (angles data); cbn; repeat split; congruence.
Qed.

Lemma feedback_example :
  feedbackGood
    (updateUI (Response None None None (Some "Not Good yet") false None None None)
              blankPage)
  = true.
Proof.
  destruct (feedback_is_good_iff_it_contains_Good
              (Response None None None (Some "Not Good yet") false None None None)
              "Not Good yet" blankPage eq_refl)
    as (_ & H & _); [discriminate|].
  apply H. exists "Not ", " yet". reflexivity.
Defined.

(** X14: presenting the same result twice is presenting it once. *)
Theorem updateUI_idempotent (data : response) (u : ui) :
  updateUI data (updateUI data u) = updateUI data u.
Proof.
  unfold updateUI.
  destruct (truthyString (feedback_text data)) as [t|];
    [destruct (includes "Good" t)|];
    destruct (has_pose data), (angles data); reflexivity.
Qed.

Lemma SFcompare_refl (f : spec_float) :
  f <> S754_nan -> SFcompare f f = Some Eq.
Proof.
  destruct f as [sg|sg| |sg m e]; cbn; intros H;
    try reflexivity; try (now destruct sg); try (now elim H).
  destruct sg; rewrite Z.compare_refl, Pos.compare_cont_refl; reflexivity.
Qed.

(** A number below another one is not NaN. *)
Lemma ltb_true_not_nan (a b : float) :
  (a <? b)%float = true -> PrimFloat.is_nan a = false.
Proof.
  unfold PrimFloat.is_nan. rewrite ltb_spec, eqb_spec. unfold SFltb, SFeqb.
  intros H. rewrite SFcompare_refl; [reflexivity|].
  intros E. rewrite E in H. discriminate H.
Qed.

(** X15: the angle panel lists the reported angles in order, one item per
    key, and flags an item as low visibility exactly when the visibility
    map has a score for its key that is below 0.7 and is not zero: a missing
    map, a missing score, a score of zero and a NaN are all shown as fully
    visible. *)
Theorem low_visibility_needs_a_nonzero_score
  (reported : list (string * float))
  (scores : option (list (string * float))) :
  map angleKey (displayAngles reported scores) = map fst reported
  /\ map angleValue (displayAngles reported scores) = map snd reported
  /\ (forall item : angleItem,
         In item (displayAngles reported scores) ->
         (isLowVis item = true
          <-> exists (vs : list (string * float)) (k : string) (w : float),
                scores = Some vs
                /\ find (fun kv => String.eqb (fst kv) (angleKey item)) vs
                   = Some (k, w)
                /\ (w <? 0.7)%float = true /\ (w =? 0)%float = false)).
Proof.
  unfold displayAngles. split; [|split].
  - rewrite map_map. reflexivity.
  - rewrite map_map. reflexivity.
  - intros item Hin. apply in_map_iff in Hin.
    destruct Hin as ([key value] & <- & _). cbn.
    unfold visibilityOf. split.
    + destruct scores as [vs|]; [|discriminate].
      destruct (find (fun kv => String.eqb (fst kv) key) vs) as [[k w]|] eqn:E;
        [|discriminate].
      destruct ((w =? 0)%float) eqn:Z0; cbn; [discriminate|].
      destruct (PrimFloat.is_nan w); [discriminate|].
      intros H. exists vs, k, w. auto.
    + intros (vs & k & w & -> & -> & Hlt & Hz).
      now rewrite Hz, (ltb_true_not_nan _ _ Hlt).
Qed.

Lemma low_visibility_example :
  map isLowVis
    (displayAngles [("left_knee", 92.4%float); ("right_elbow", 171.5%float);
                    ("left_hip", 120%float)]
       (Some [("left_knee", 0%float); ("right_elbow", 0.4%float)]))
  = [false; true; false].
Proof. reflexivity. Qed.

(** ** The labels *)

Lemma toUpperCase_isWordChar (c : ascii) :
  isWordChar (toUpperCase c) = isWordChar c.
Proof. destruct c as [[] [] [] [] [] [] [] []]; reflexivity. Qed.

Lemma toUpperCase_idempotent (c : ascii) :
  toUpperCase (toUpperCase c) = toUpperCase c.
Proof. destruct c as [[] [] [] [] [] [] [] []]; reflexivity. Qed.

Lemma toUpperCase_underscore (c : ascii) :
  Ascii.eqb (toUpperCase c) "_" = Ascii.eqb c "_".
Proof. destruct c as [[] [] [] [] [] [] [] []]; reflexivity. Qed.

(** The character [capitalizeWords] writes for [c]. *)
Lemma capitalized_underscore (b : bool) (c : ascii) :
  Ascii.eqb (if b then toUpperCase c else c) "_" = Ascii.eqb c "_".
Proof. destruct b; [apply toUpperCase_underscore | reflexivity]. Qed.

Lemma replaceUnderscores_capitalizeWords (afterWord : bool) (text : string) :
  replaceUnderscores text = text ->
  replaceUnderscores (capitalizeWords afterWord text)
  = capitalizeWords afterWord text.
Proof.
  revert afterWord. induction text as [|c text IH]; intros afterWord H;
    [reflexivity|].
  cbn in H |- *. injection H as Hc Ht.
  rewrite capitalized_underscore, (IH _ Ht).
  destruct (Ascii.eqb_spec c "_") as [->|_]; [discriminate Hc | reflexivity].
Qed.

Lemma replaceUnderscores_idempotent (key : string) :
  replaceUnderscores (replaceUnderscores key) = replaceUnderscores key.
Proof.
  induction key as [|c key IH]; [reflexivity|].
  cbn. rewrite IH.
  destruct (Ascii.eqb c "_") eqn:E; [reflexivity | now rewrite E].
Qed.

Lemma capitalizeWords_idempotent (afterWord : bool) (text : string) :
  capitalizeWords afterWord (capitalizeWords afterWord text)
  = capitalizeWords afterWord text.
Proof.
  revert afterWord. induction text as [|c text IH]; intros afterWord;
    [reflexivity|].
  cbn.
  assert (W : isWordChar (if isWordChar c && negb afterWord
                          then toUpperCase c else c) = isWordChar c)
    by (destruct (isWordChar c && negb afterWord);
        [apply toUpperCase_isWordChar | reflexivity]).
  rewrite W, IH.
  destruct (isWordChar c && negb afterWord); [|reflexivity].
  now rewrite toUpperCase_idempotent.
Qed.

Lemma capitalizeWords_length (afterWord : bool) (text : string) :
  String.length (capitalizeWords afterWord text) = String.length text.
Proof.
  revert afterWord. induction text as [|c text IH]; intros afterWord;
    [reflexivity|].
  cbn. now rewrite IH.
Qed.

Lemma replaceUnderscores_length (key : string) :
  String.length (replaceUnderscores key) = String.length key.
Proof. induction key as [|c key IH]; [reflexivity|]. cbn. now rewrite IH. Qed.

Lemma replaceUnderscores_fixed_no_underscore (text : string) :
  replaceUnderscores text = text ->
  ~ In "_"%char (list_ascii_of_string text).
Proof.
  induction text as [|c text IH]; intros H; cbn; [tauto|].
  cbn in H. injection H as Hc Ht.
  intros [E|E]; [|now apply IH].
  subst c. discriminate Hc.
Qed.

(** X16: a label has the length of its key and no underscore, and
    formatting a label again changes nothing. *)
Theorem formatAngleName_is_a_normal_form (key : string) :
  String.length (formatAngleName key) = String.length key
  /\ ~ In "_"%char (list_ascii_of_string (formatAngleName key))
  /\ formatAngleName (formatAngleName key) = formatAngleName key.
Proof.
  assert (F : replaceUnderscores (formatAngleName key) = formatAngleName key)
    by (apply replaceUnderscores_capitalizeWords,
          replaceUnderscores_idempotent).
  split; [|split].
  - unfold formatAngleName.
    now rewrite capitalizeWords_length, replaceUnderscores_length.
  - now apply replaceUnderscores_fixed_no_underscore.
  - unfold formatAngleName at 1. rewrite F.
    apply capitalizeWords_idempotent.
Qed.

Lemma formatAngleName_example :
  formatAngleName "left_knee_angle2" = "Left Knee Angle2"
  /\ formatAngleName "_spine-tilt" = " Spine-Tilt".
Proof. split; reflexivity. Qed.
